(** * SpotAPI session store ([spotapi/session.py])

    A shallow embedding of [SpotifySession]: the four static methods
    [setup], [load], [list_sessions] and [remove], over a store of files
    and a console.

    What the embedding keeps of the Python program:
    - the values that [json.load] returns, with the three operations the
      methods apply to them (iteration, [.get], [len]) and the exceptions
      these raise on values of the wrong kind;
    - exceptions as the left summand of every result, with the state at
      the point where they are raised;
    - the session file, through what [json.load] makes of it.

    What it leaves out: directories and failing system calls.  [mkdir],
    [open] and [write] succeed on every path; the only [OSError] left is
    the one [open] raises on a missing file.  A file is known by the text
    of its path: two texts for one file ([s.json] and [d/../s.json]) are
    two files here.  A file is known by what it decodes to, not by its
    layout; and of the failures of the decoder only two are states of a
    file, not the ones of a number with too many digits or of nesting
    that is too deep. *)

From Stdlib Require Import ZArith Ascii.
From stdpp Require Import gmap strings list.

Open Scope string_scope.
Open Scope list_scope.

Set Warnings "-register-all".

(** ** Python values *)

(** The values [json.load] can return.  [VNone] is Python's [None], which
    is also what JSON's [null] decodes to.  A dictionary keeps its items
    in insertion order; the decoder never yields a key twice.  A string
    stands for a Python [str] with code points below 256. *)
Inductive value : Type :=
| VNone
| VBool (b : bool)
| VInt (n : Z)
| VFloat (literal : string)
| VStr (s : string)
| VList (items : list value)
| VDict (items : list (string * value)).

(** An f-string is kept as its text, except for a list formatted with
    [repr], which is kept as the list. *)
Inductive piece : Type :=
| Text (s : string)
| Repr (vs : list value).

Inductive exn : Type :=
| FileNotFoundError (msg : string)
| KeyError (msg : list piece)
| JSONDecodeError
| UnicodeDecodeError
| AttributeError
| TypeError
| OtherError (cls msg : string).

Definition result (A : Type) : Type := exn + A.

(** [for s in v] *)
Definition py_iter (v : value) : result (list value) :=
  match v with
  | VList items => inr items
  | VDict items => inr (map (λ kv, VStr kv.1) items)
  | VStr s => inr (map (λ c, VStr (String c "")) (String.list_ascii_of_string s))
  | _ => inl TypeError
  end.

(** [len(v)] *)
Definition py_len (v : value) : result nat :=
  match v with
  | VList items => inr (length items)
  | VDict items => inr (length items)
  | VStr s => inr (String.length s)
  | _ => inl TypeError
  end.

(** [d.get(key, default)] on the items of a dictionary *)
Fixpoint dict_get (items : list (string * value)) (key : string)
    (default : value) : value :=
  match items with
  | [] => default
  | (k, v) :: rest => if String.eqb k key then v else dict_get rest key default
  end.

(** [s.get(key, default)]: only a dictionary has the attribute. *)
Definition py_get (s : value) (key : string) (default : value) : result value :=
  match s with
  | VDict items => inr (dict_get items key default)
  | _ => inl AttributeError
  end.

(** [v == identifier] for a [str] on the right: no other kind of value
    equals a string. *)
Definition eq_str (v : value) (identifier : string) : bool :=
  match v with
  | VStr s => String.eqb s identifier
  | _ => false
  end.

(** [str.isspace] on one character (code points below 256). *)
Definition is_space (c : ascii) : bool :=
  let n := nat_of_ascii c in
  (((9 <=? n) && (n <=? 13)) || ((28 <=? n) && (n <=? 32))
   || (n =? 133) || (n =? 160))%nat.

Fixpoint lstrip (s : string) : string :=
  match s with
  | String c rest => if is_space c then lstrip rest else s
  | EmptyString => EmptyString
  end.

Fixpoint rstrip (s : string) : string :=
  match s with
  | String c rest =>
      match rstrip rest with
      | EmptyString => if is_space c then EmptyString else String c EmptyString
      | kept => String c kept
      end
  | EmptyString => EmptyString
  end.

(** [s.strip()] *)
Definition strip (s : string) : string := rstrip (lstrip s).

(** ** The comprehensions and the generator of the methods *)

(** [[s for s in items if s.get("identifier") != identifier]] *)
Fixpoint keep_others (identifier : string) (items : list value)
    : result (list value) :=
  match items with
  | [] => inr []
  | s :: rest =>
      match py_get s "identifier" VNone with
      | inl e => inl e
      | inr v =>
          match keep_others identifier rest with
          | inl e => inl e
          | inr kept => inr (if eq_str v identifier then kept else s :: kept)
          end
      end
  end.

(** [next((s for s in items if s.get("identifier") == identifier), None)]:
    the generator stops at the first match and does not look at what is
    behind it. *)
Fixpoint first_match (identifier : string) (items : list value)
    : result (option value) :=
  match items with
  | [] => inr None
  | s :: rest =>
      match py_get s "identifier" VNone with
      | inl e => inl e
      | inr v =>
          if eq_str v identifier then inr (Some s)
          else first_match identifier rest
      end
  end.

(** [[s.get("identifier", default) for s in items]] *)
Fixpoint identifiers (default : value) (items : list value)
    : result (list value) :=
  match items with
  | [] => inr []
  | s :: rest =>
      match py_get s "identifier" default with
      | inl e => inl e
      | inr v =>
          match identifiers default rest with
          | inl e => inl e
          | inr vs => inr (v :: vs)
          end
      end
  end.

(** The record [setup] builds (lines 97-106). *)
Definition session_record (identifier sp_dc sp_key : string) : value :=
  VDict [("identifier", VStr identifier);
         ("password", VStr "");
         ("cookies", VDict [("sp_dc", VStr sp_dc); ("sp_key", VStr sp_key)])].

(** ** Files and console *)

(** A file, by what reading it as JSON text gives. *)
Inductive contents : Type :=
| Undecodable           (* bytes that are no text in the file's encoding *)
| NotJson               (* text the JSON decoder rejects *)
| Doc (v : value).      (* text the JSON decoder accepts, decoding to [v] *)

Record world : Type := World {
  files : gmap string contents;   (* path to contents, for the files that exist *)
  console : list string           (* the lines printed so far *)
}.

(** A computation: result or exception, and the world it leaves. *)
Definition M (A : Type) : Type := world → result A * world.

Definition ret {A} (a : A) : M A := λ w, (inr a, w).

Definition raise {A} (e : exn) : M A := λ w, (inl e, w).

Definition bind {A B} (m : M A) (k : A → M B) : M B :=
  λ w, match m w with
       | (inl e, w') => (inl e, w')
       | (inr a, w') => k a w'
       end.

Definition lift {A} (r : result A) : M A :=
  match r with
  | inl e => raise e
  | inr a => ret a
  end.

(** [try: body except <caught>: handler] *)
Definition try_except {A} (body : M A) (caught : exn → bool) (handler : M A)
    : M A :=
  λ w, match body w with
       | (inl e, w') => if caught e then handler w' else (inl e, w')
       | (inr a, w') => (inr a, w')
       end.

Notation "'let*' x := m 'in' k" := (bind m (λ x, k))
  (at level 10, x name, m at level 100, k at level 200).
Notation "m ;;; k" := (bind m (λ _, k))
  (at level 100, k at level 200, right associativity).

(** [session_file.exists()] *)
Definition exists_ (p : string) : M bool :=
  λ w, (inr (bool_decide (is_Some (files w !! p))), w).

(** [with open(p, "r") as f: json.load(f)] *)
Definition json_load (p : string) : M value :=
  λ w, match files w !! p with
       | None =>
           (inl (FileNotFoundError
                   ("[Errno 2] No such file or directory: " +:+ p)), w)
       | Some Undecodable => (inl UnicodeDecodeError, w)
       | Some NotJson => (inl JSONDecodeError, w)
       | Some (Doc v) => (inr v, w)
       end.

(** [with open(p, "w") as f: json.dump(v, f, indent=4)] *)
Definition json_dump (v : value) (p : string) : M unit :=
  λ w, (inr (), World (<[p := Doc v]> (files w)) (console w)).

(** [p.parent.mkdir(parents=True, exist_ok=True)]: directories are not
    part of the world, so this changes nothing and cannot fail. *)
Definition mkdir_parents (p : string) : M unit := ret ().

(** [print(line)] *)
Definition print (line : string) : M unit :=
  λ w, (inr (), World (files w) (console w ++ [line])).

(** [except (json.JSONDecodeError, IOError)]: [IOError] is [OSError], of
    which [FileNotFoundError] is a subclass. *)
Definition JSONDecodeError_or_IOError (e : exn) : bool :=
  match e with
  | JSONDecodeError | FileNotFoundError _ => true
  | _ => false
  end.

(** The [path] argument: a [Path], a [str], or [None] (as [option]). *)
Inductive path_arg : Type :=
| OfPath (p : string)
| OfStr (s : string).

(** [identifier: str = "default"], for a call that gives none. *)
Definition default_identifier : string := "default".

(** ** Vocabulary of the statements *)

(** An object of the JSON array. *)
Definition is_record (v : value) : bool :=
  match v with
  | VDict _ => true
  | _ => false
  end.

(** An object with an ["identifier"] key. *)
Definition has_identifier (v : value) : bool :=
  match v with
  | VDict items => existsb (λ kv, String.eqb kv.1 "identifier") items
  | _ => false
  end.

(** The record [s] is the one of [identifier]: [s.get("identifier")] is
    that string. *)
Definition names (identifier : string) (s : value) : bool :=
  match s with
  | VDict items => eq_str (dict_get items "identifier" VNone) identifier
  | _ => false
  end.

(** What [s.get("identifier", default)] is for a record. *)
Definition identifier_of (default : value) (s : value) : value :=
  match s with
  | VDict items => dict_get items "identifier" default
  | _ => default
  end.

(** The records of a session file: the array, when the file holds one. *)
Definition records (c : option contents) : list value :=
  match c with
  | Some (Doc (VList items)) => items
  | _ => []
  end.

(** The states of the session file in the data model: no file, text
    that is no JSON, or a JSON array of objects. *)
Definition well_formed (c : option contents) : bool :=
  match c with
  | None => true
  | Some NotJson => true
  | Some (Doc (VList items)) => forallb is_record items
  | Some _ => false
  end.

(** What [json.load] raises on a file it cannot decode. *)
Definition decode_error (c : contents) : option exn :=
  match c with
  | Undecodable => Some UnicodeDecodeError
  | NotJson => Some JSONDecodeError
  | Doc _ => None
  end.

(** A JSON document that is no container: [null], a boolean or a
    number. *)
Definition scalar (v : value) : bool :=
  match v with
  | VNone | VBool _ | VInt _ | VFloat _ => true
  | _ => false
  end.

(** The records of [items] other than the one of [identifier]. *)
Definition others (identifier : string) (items : list value) : list value :=
  List.filter (λ s, negb (names identifier s)) items.

Module SpotifySession.
Section Methods.

(** The collaborators, from [spotapi.login], [spotapi.types.data] and
    [spotapi.utils.logger]: the class [Login] with its constructor
    [Login.from_cookies], which may raise; the class [Config] and the
    value of [Config(logger=NoopLogger())]. *)
Variable Login : Type.
Variable Config : Type.
Variable from_cookies : value → Config → result Login.
Variable silent_config : Config.

(** [pathlib]: [Path(s)] for a string, and the module's constant
    [_DEFAULT_SESSION_FILE], which depends on the user's home. *)
Variable Path : string → string.
Variable _DEFAULT_SESSION_FILE : string.

(** [Path(path) if path else _DEFAULT_SESSION_FILE]: [None] and the
    empty string are false, every [Path] is true. *)
Definition _session_file (path : option path_arg) : string :=
  match path with
  | None => _DEFAULT_SESSION_FILE
  | Some (OfStr EmptyString) => _DEFAULT_SESSION_FILE
  | Some (OfStr s) => Path s
  | Some (OfPath p) => p
  end.

Definition load (identifier : string) (path : option path_arg)
    (cfg : option Config) : M Login :=
  let session_file := _session_file path in
  let* present := exists_ session_file in
  if negb present then
    raise (FileNotFoundError
             ("No session file found at " +:+ session_file +:+ ". "
              +:+ "Run SpotifySession.setup('your_sp_dc') first."))
  else
    let* sessions := json_load session_file in
    let* items := lift (py_iter sessions) in
    let* match_ := lift (first_match identifier items) in
    match match_ with
    | None =>
        let* available := lift (identifiers VNone items) in
        raise (KeyError
                 [Text ("Session '" +:+ identifier +:+ "' not found. "
                        +:+ "Available sessions: ");
                  Repr available])
    | Some record =>
        let cfg := match cfg with
                   | None => silent_config
                   | Some c => c
                   end in
        lift (from_cookies record cfg)
    end.

(** Lines 94-126 of [setup]: everything before the final [load]. *)
Definition setup_store (sp_dc sp_key identifier : string)
    (path : option path_arg) : M unit :=
  let sp_dc := strip sp_dc in
  let sp_key := strip sp_key in
  let session_data := [session_record identifier sp_dc sp_key] in
  let session_file := _session_file path in
  mkdir_parents session_file ;;;
  let* present := exists_ session_file in
  let* existing :=
    (if present then
       try_except
         (let* existing := json_load session_file in
          let* items := lift (py_iter existing) in
          lift (keep_others identifier items))
         JSONDecodeError_or_IOError
         (ret [])
     else ret []) in
  json_dump (VList (existing ++ session_data)) session_file ;;;
  print ("Session '" +:+ identifier +:+ "' saved to: " +:+ session_file).

Definition setup (sp_dc sp_key identifier : string)
    (path : option path_arg) : M Login :=
  setup_store sp_dc sp_key identifier path ;;;
  load identifier path None.

Definition list_sessions (path : option path_arg) : M (list value) :=
  let session_file := _session_file path in
  let* present := exists_ session_file in
  if negb present then ret []
  else
    let* sessions := json_load session_file in
    let* items := lift (py_iter sessions) in
    lift (identifiers (VStr "?") items).

Definition remove (identifier : string) (path : option path_arg) : M unit :=
  let session_file := _session_file path in
  let* present := exists_ session_file in
  if negb present then
    raise (FileNotFoundError
             ("No session file found at " +:+ session_file +:+ "."))
  else
    let* sessions := json_load session_file in
    let* items := lift (py_iter sessions) in
    let* new_sessions := lift (keep_others identifier items) in
    let* n := lift (py_len sessions) in
    if (length new_sessions =? n)%nat then
      raise (KeyError [Text ("Session '" +:+ identifier +:+ "' not found.")])
    else
      json_dump (VList new_sessions) session_file ;;;
      print ("Session '" +:+ identifier +:+ "' removed from "
             +:+ session_file +:+ ".").

End Methods.
End SpotifySession.

(** Unfold a method down to the lookups in the store. *)
Ltac run :=
  unfold SpotifySession.setup, SpotifySession.setup_store,
    SpotifySession.load, SpotifySession.list_sessions,
    SpotifySession.remove, bind, mkdir_parents, exists_, json_load,
    json_dump, print, try_except, lift, ret, raise;
  cbv beta zeta.

(** The same, in a store whose session file is known. *)
Ltac run_at p v :=
  let c := fresh "c" in
  let E := fresh "Hfile" in
  run; destruct p as [c|] eqn:E; [destruct c as [| |v]|];
  simpl; rewrite ?E; simpl.

(** ** An instance of the collaborators, to run the methods *)

Module Demo.

(** A [Login] that is the record it was made from, and a factory that
    accepts every record; a second factory that refuses every record. *)
Definition accept (record : value) (cfg : unit) : result value :=
  inr record.

Definition refuse (record : value) (cfg : unit) : result value :=
  inl (OtherError "ValueError" "Invalid dump format").

Definition home : string := "/home/me/.config/spotapi/session.json".

Definition setup := SpotifySession.setup value unit accept () id home.
Definition setup_refused := SpotifySession.setup value unit refuse () id home.
Definition setup_store := SpotifySession.setup_store id home.
Definition load := SpotifySession.load value unit accept () id home.
Definition load_refused := SpotifySession.load value unit refuse () id home.
Definition list_sessions := SpotifySession.list_sessions id home.
Definition remove := SpotifySession.remove id home.

(** A path given as a string, and worlds with one file there. *)
Definition here : option path_arg := Some (OfStr "sessions.json").

Definition nothing : world := World ∅ [].

Definition holding (c : contents) : world :=
  World {["sessions.json" := c]} [].

Definition alice : value := session_record "alice" "dc-1" "key-1".
Definition bob : value := session_record "bob" "dc-2" "key-2".
Definition alice_again : value := session_record "alice" "dc-3" "key-3".

Definition only_bob : world := holding (Doc (VList [bob])).
Definition both : world := holding (Doc (VList [alice; bob])).
Definition numbers : world := holding (Doc (VList [VInt 1])).
Definition unnamed : world := holding (Doc (VList [bob; VDict []; alice])).
Definition hand_edited : world :=
  holding (Doc (VList [bob; alice; alice_again; VInt 1])).

(** An array whose one record has no identifier. *)
Definition blank_record : world := holding (Doc (VList [VDict []])).

(** Two calls of [setup] with one identifier. *)
Definition setup_twice_as (identifier : string) (w : world) : world :=
  (setup "dc-2" "key-2" identifier here
     (setup "dc-1" "key-1" identifier here w).2).2.

(** Records whose identifier is a number, or [null]. *)
Definition numbered : value := VDict [("identifier", VInt 7)].
Definition nameless : value := VDict [("identifier", VNone)].
Definition odd_identifiers : world :=
  holding (Doc (VList [numbered; nameless; VDict []])).

End Demo.

(** * Properties *)

(** ** Strings and paths *)

(** Blanks, a tab and a line feed at the ends go, a blank inside stays. *)
Example strip_both_ends :
  strip ("  AQC 1 " +:+ String "009" (String "010" "")) = "AQC 1".
Proof. reflexivity. Qed.

Example strip_blank : strip (String "160" "  ") = "".
Proof. reflexivity. Qed.

Lemma lstrip_idemp s : lstrip (lstrip s) = lstrip s.
Proof.
  induction s as [|c s IH]; simpl; [done|].
  destruct (is_space c) eqn:E; [done|]. simpl. by rewrite E.
Qed.

(** The empty string is no path: the default file is used. *)
Example empty_path_is_default Path home :
  SpotifySession._session_file Path home (Some (OfStr "")) = home
  ∧ SpotifySession._session_file Path home None = home
  ∧ SpotifySession._session_file Path home (Some (OfStr "s.json"))
    = Path "s.json".
Proof. done. Qed.

(** ** The comprehensions on arrays of objects *)

Lemma keep_others_records identifier items :
  forallb is_record items = true →
  keep_others identifier items = inr (others identifier items).
Proof.
  induction items as [|s rest IH]; simpl; [done|].
  intros [Hs Hrest]%andb_prop.
  destruct s; try discriminate. simpl.
  rewrite (IH Hrest). unfold others. simpl.
  by destruct (eq_str _ identifier).
Qed.

Lemma keep_others_inv identifier items kept :
  keep_others identifier items = inr kept →
  forallb is_record items = true ∧ kept = others identifier items.
Proof.
  revert kept. induction items as [|s rest IH]; simpl; intros kept H.
  - by inversion H.
  - destruct s; try discriminate. simpl in H.
    destruct (keep_others identifier rest) as [e|kept'] eqn:E; [discriminate|].
    destruct (IH kept' eq_refl) as [-> ->]. split; [done|].
    inversion H. unfold others. simpl. by destruct (eq_str _ identifier).
Qed.

(** [len] counts what iteration yields. *)
Lemma py_len_iter v items :
  py_iter v = inr items → py_len v = inr (length items).
Proof.
  destruct v; simpl; try discriminate; intros [= <-].
  - f_equal. induction s as [|c s IH]; simpl; [done|]. by rewrite IH.
  - done.
  - by rewrite length_map.
Qed.

(** What iteration and the filter can raise. *)
Lemma py_iter_raises v e : py_iter v = inl e → e = TypeError.
Proof. destruct v; simpl; congruence. Qed.

Lemma keep_others_raises identifier items e :
  keep_others identifier items = inl e → e = AttributeError.
Proof.
  induction items as [|s rest IH]; simpl; [discriminate|].
  destruct (py_get s "identifier" VNone) as [e'|v] eqn:Hget.
  - destruct s; simpl in Hget; congruence.
  - destruct (keep_others identifier rest); [|discriminate].
    intros [= <-]. by apply IH.
Qed.

Lemma identifiers_records default items :
  forallb is_record items = true →
  identifiers default items = inr (map (identifier_of default) items).
Proof.
  induction items as [|s rest IH]; simpl; [done|].
  intros [Hs Hrest]%andb_prop.
  destruct s; try discriminate. simpl. by rewrite (IH Hrest).
Qed.

Lemma first_match_none identifier items :
  forallb is_record items = true →
  List.filter (names identifier) items = [] →
  first_match identifier items = inr None.
Proof.
  induction items as [|s rest IH]; simpl; [done|].
  intros [Hs Hrest]%andb_prop.
  destruct s; try discriminate. simpl.
  destruct (eq_str _ identifier); [discriminate|]. by apply IH.
Qed.

Lemma first_match_first identifier before record behind :
  forallb is_record before = true →
  List.filter (names identifier) before = [] →
  names identifier record = true →
  first_match identifier (before ++ record :: behind) = inr (Some record).
Proof.
  intros Hrec Hnone Hname.
  induction before as [|s rest IH]; simpl.
  - destruct record; try discriminate. simpl in *. by rewrite Hname.
  - simpl in Hrec, Hnone. apply andb_prop in Hrec as [Hs Hrest].
    destruct s; try discriminate. simpl in *.
    destruct (eq_str _ identifier); [discriminate|]. by apply IH.
Qed.

Lemma others_records identifier items :
  forallb is_record items = true →
  forallb is_record (others identifier items) = true.
Proof.
  intros H. apply forallb_forall. intros s [Hs _]%filter_In.
  by eapply forallb_forall in H.
Qed.

Lemma others_names identifier items :
  List.filter (names identifier) (others identifier items) = [].
Proof.
  induction items as [|s rest IH]; simpl; [done|].
  destruct (names identifier s) eqn:E; simpl; [done|]. by rewrite E.
Qed.

Lemma others_idemp identifier items :
  others identifier (others identifier items) = others identifier items.
Proof.
  induction items as [|s rest IH]; simpl; [done|].
  destruct (names identifier s) eqn:E; simpl; [done|].
  rewrite E. simpl. by rewrite IH.
Qed.

Lemma others_app identifier xs ys :
  others identifier (xs ++ ys) = others identifier xs ++ others identifier ys.
Proof. apply List.filter_app. Qed.

Lemma names_session_record identifier other sp_dc sp_key :
  names identifier (session_record other sp_dc sp_key)
  = String.eqb other identifier.
Proof. reflexivity. Qed.

(** A second [setup] drops the record of the first. *)
Lemma others_resaved identifier items sp_dc sp_key :
  others identifier
    (others identifier items ++ [session_record identifier sp_dc sp_key])
  = others identifier items.
Proof.
  rewrite others_app, others_idemp. unfold others at 2. simpl.
  by rewrite String.eqb_refl, app_nil_r.
Qed.

Lemma names_functional x y s :
  names x s = true → names y s = true → x = y.
Proof.
  destruct s; simpl; try discriminate.
  destruct (dict_get items "identifier" VNone); simpl; try discriminate.
  intros ->%String.eqb_eq ->%String.eqb_eq. done.
Qed.

(** Dropping the records of [x] keeps those of any other [y]. *)
Lemma others_frame x y items :
  x ≠ y →
  List.filter (names y) (others x items) = List.filter (names y) items.
Proof.
  intros Hxy. induction items as [|s rest IH]; simpl; [done|].
  destruct (names x s) eqn:Hx; simpl.
  - destruct (names y s) eqn:Hy; [|done].
    destruct Hxy. by eapply names_functional.
  - by rewrite IH.
Qed.

Lemma well_formed_records c :
  well_formed c = true → forallb is_record (records c) = true.
Proof. destruct c as [[| |[]]|]; simpl; done. Qed.

(** A record without the key gets the default, one with the key does
    not depend on it. *)
Lemma identifier_of_missing default s :
  is_record s = true → has_identifier s = false →
  identifier_of default s = default.
Proof.
  destruct s; simpl; try discriminate. intros _.
  induction items as [|[k v] rest IH]; simpl; [done|].
  destruct (String.eqb k "identifier"); simpl; [discriminate|]. apply IH.
Qed.

Lemma identifier_of_present default s :
  has_identifier s = true →
  identifier_of default s = identifier_of VNone s.
Proof.
  destruct s; simpl; try discriminate.
  induction items as [|[k v] rest IH]; simpl; [discriminate|].
  destruct (String.eqb k "identifier"); simpl; [done|]. apply IH.
Qed.

(** The records that are not of [identifier] are not listed under it,
    unless it is the placeholder and a record has no identifier. *)
Lemma listing_others identifier items :
  forallb is_record items = true →
  identifier ≠ "?" ∨ forallb has_identifier items = true →
  List.filter (λ v, eq_str v identifier)
    (map (identifier_of (VStr "?")) (others identifier items)) = [].
Proof.
  induction items as [|s rest IH]; simpl; [done|].
  intros [Hs Hrest]%andb_prop Hids.
  assert (identifier ≠ "?" ∨ forallb has_identifier rest = true) as Hids'.
  { destruct Hids as [?|[_ ?]%andb_prop]; auto. }
  destruct (names identifier s) eqn:Hname; simpl; [by apply IH|].
  destruct (has_identifier s) eqn:Hid.
  - rewrite (identifier_of_present _ _ Hid).
    destruct s; try discriminate. simpl in *. rewrite Hname. by apply IH.
  - rewrite (identifier_of_missing _ _ Hs Hid).
    destruct Hids as [Hne|Hall]; [|discriminate].
    cbn [List.filter eq_str].
    assert (String.eqb "?" identifier = false) as ->
      by (apply String.eqb_neq; congruence).
    by apply IH.
Qed.

(** Filtering keeps the length exactly when it drops nothing. *)
Lemma others_length identifier items :
  length (others identifier items) = length items ↔
  List.filter (names identifier) items = [].
Proof.
  induction items as [|s rest IH]; simpl; [done|].
  pose proof (List.filter_length_le (λ s, negb (names identifier s)) rest) as Hle.
  fold (others identifier rest) in Hle.
  destruct (names identifier s); simpl.
  - split; [lia | discriminate].
  - rewrite <- IH. split; lia.
Qed.

(** ** The methods *)

Section Properties.

Variable Login : Type.
Variable Config : Type.
Variable from_cookies : value → Config → result Login.
Variable silent_config : Config.
Variable Path : string → string.
Variable _DEFAULT_SESSION_FILE : string.

Local Abbreviation _session_file :=
  (SpotifySession._session_file Path _DEFAULT_SESSION_FILE).
Local Abbreviation load :=
  (SpotifySession.load Login Config from_cookies silent_config
     Path _DEFAULT_SESSION_FILE).
Local Abbreviation setup_store :=
  (SpotifySession.setup_store Path _DEFAULT_SESSION_FILE).
Local Abbreviation setup :=
  (SpotifySession.setup Login Config from_cookies silent_config
     Path _DEFAULT_SESSION_FILE).
Local Abbreviation list_sessions :=
  (SpotifySession.list_sessions Path _DEFAULT_SESSION_FILE).
Local Abbreviation remove :=
  (SpotifySession.remove Path _DEFAULT_SESSION_FILE).

(** *** Each method, by the state of the session file *)

Lemma load_at identifier path cfg w :
  load identifier path cfg w
  = (match files w !! _session_file path with
     | None =>
         inl (FileNotFoundError
                ("No session file found at " +:+ _session_file path +:+ ". "
                 +:+ "Run SpotifySession.setup('your_sp_dc') first."))
     | Some Undecodable => inl UnicodeDecodeError
     | Some NotJson => inl JSONDecodeError
     | Some (Doc sessions) =>
         match py_iter sessions with
         | inl e => inl e
         | inr items =>
             match first_match identifier items with
             | inl e => inl e
             | inr (Some record) =>
                 from_cookies record
                   (match cfg with None => silent_config | Some c => c end)
             | inr None =>
                 match identifiers VNone items with
                 | inl e => inl e
                 | inr available =>
                     inl (KeyError
                            [Text ("Session '" +:+ identifier
                                   +:+ "' not found. "
                                   +:+ "Available sessions: ");
                             Repr available])
                 end
             end
         end
     end, w).
Proof.
  run_at (files w !! _session_file path) v; try done.
  destruct (py_iter v) as [e|items]; simpl; [done|].
  destruct (first_match identifier items) as [e|[record|]]; simpl; try done.
  - by destruct (from_cookies record _).
  - by destruct (identifiers VNone items).
Qed.

Lemma list_sessions_at path w :
  list_sessions path w
  = (match files w !! _session_file path with
     | None => inr []
     | Some Undecodable => inl UnicodeDecodeError
     | Some NotJson => inl JSONDecodeError
     | Some (Doc sessions) =>
         match py_iter sessions with
         | inl e => inl e
         | inr items => identifiers (VStr "?") items
         end
     end, w).
Proof.
  run_at (files w !! _session_file path) v; try done.
  destruct (py_iter v) as [e|items]; simpl; [done|].
  by destruct (identifiers (VStr "?") items).
Qed.

(** The inner match is what lines 112-120 leave in [existing]. *)
Lemma setup_store_at sp_dc sp_key identifier path w :
  setup_store sp_dc sp_key identifier path w
  = match
      match files w !! _session_file path with
      | None | Some NotJson => inr []
      | Some Undecodable => inl UnicodeDecodeError
      | Some (Doc existing) =>
          match py_iter existing with
          | inl e => inl e
          | inr items => keep_others identifier items
          end
      end
    with
    | inl e => (inl e, w)
    | inr existing =>
        (inr (),
         World (<[_session_file path :=
                    Doc (VList (existing
                                ++ [session_record identifier
                                      (strip sp_dc) (strip sp_key)]))]>
                  (files w))
               (console w
                ++ ["Session '" +:+ identifier +:+ "' saved to: "
                    +:+ _session_file path]))
    end.
Proof.
  run_at (files w !! _session_file path) v; try done.
  destruct (py_iter v) as [e|items] eqn:Hiter; simpl.
  { by apply py_iter_raises in Hiter as ->. }
  destruct (keep_others identifier items) as [e|kept] eqn:Hkeep; simpl.
  { by apply keep_others_raises in Hkeep as ->. }
  done.
Qed.

Lemma remove_at identifier path w :
  remove identifier path w
  = match files w !! _session_file path with
    | None =>
        (inl (FileNotFoundError
                ("No session file found at " +:+ _session_file path +:+ ".")),
         w)
    | Some Undecodable => (inl UnicodeDecodeError, w)
    | Some NotJson => (inl JSONDecodeError, w)
    | Some (Doc sessions) =>
        match py_iter sessions with
        | inl e => (inl e, w)
        | inr items =>
            match keep_others identifier items with
            | inl e => (inl e, w)
            | inr new_sessions =>
                if (length new_sessions =? length items)%nat then
                  (inl (KeyError [Text ("Session '" +:+ identifier
                                        +:+ "' not found.")]), w)
                else
                  (inr (),
                   World (<[_session_file path := Doc (VList new_sessions)]>
                            (files w))
                         (console w
                          ++ ["Session '" +:+ identifier +:+ "' removed from "
                              +:+ _session_file path +:+ "."]))
            end
        end
    end.
Proof.
  run_at (files w !! _session_file path) v; try done.
  destruct (py_iter v) as [e|items] eqn:Hiter; simpl; [done|].
  destruct (keep_others identifier items) as [e|kept]; simpl; [done|].
  rewrite (py_len_iter _ _ Hiter). simpl.
  by destruct (_ =? _)%nat.
Qed.

(** *** [setup] on a session file of the data model *)

Lemma setup_at sp_dc sp_key identifier path w :
  setup sp_dc sp_key identifier path w
  = match setup_store sp_dc sp_key identifier path w with
    | (inl e, w') => (inl e, w')
    | (inr _, w') => load identifier path None w'
    end.
Proof. reflexivity. Qed.

(** The write: the records of the other identifiers, then the new record;
    and one line on the console. *)
Lemma setup_store_well_formed sp_dc sp_key identifier path w :
  well_formed (files w !! _session_file path) = true →
  setup_store sp_dc sp_key identifier path w
  = (inr (),
     World (<[_session_file path :=
                Doc (VList (others identifier
                              (records (files w !! _session_file path))
                            ++ [session_record identifier
                                  (strip sp_dc) (strip sp_key)]))]>
              (files w))
           (console w
            ++ ["Session '" +:+ identifier +:+ "' saved to: "
                +:+ _session_file path])).
Proof.
  rewrite setup_store_at.
  destruct (files w !! _session_file path) as [[| |[]]|]; simpl; try done.
  intros Hrec. by rewrite (keep_others_records _ _ Hrec).
Qed.

(** [load] finds the record that was written last. *)
Lemma load_after_store identifier sp_dc sp_key path cfg fs out kept :
  forallb is_record kept = true →
  List.filter (names identifier) kept = [] →
  load identifier path cfg
    (World (<[_session_file path :=
                Doc (VList (kept ++ [session_record identifier sp_dc sp_key]))]>
              fs) out)
  = (from_cookies (session_record identifier sp_dc sp_key)
       (match cfg with None => silent_config | Some c => c end),
     World (<[_session_file path :=
                Doc (VList (kept ++ [session_record identifier sp_dc sp_key]))]>
              fs) out).
Proof.
  intros Hrec Hnone. rewrite load_at. simpl files.
  rewrite lookup_insert_eq. simpl py_iter. cbv iota.
  rewrite (first_match_first identifier kept _ [] Hrec Hnone); [done|].
  rewrite names_session_record. apply String.eqb_refl.
Qed.

Lemma setup_well_formed sp_dc sp_key identifier path w :
  well_formed (files w !! _session_file path) = true →
  setup sp_dc sp_key identifier path w
  = (from_cookies
       (session_record identifier (strip sp_dc) (strip sp_key)) silent_config,
     World (<[_session_file path :=
                Doc (VList (others identifier
                              (records (files w !! _session_file path))
                            ++ [session_record identifier
                                  (strip sp_dc) (strip sp_key)]))]>
              (files w))
           (console w
            ++ ["Session '" +:+ identifier +:+ "' saved to: "
                +:+ _session_file path])).
Proof.
  intros Hwf. rewrite setup_at, (setup_store_well_formed _ _ _ _ _ Hwf).
  apply (load_after_store identifier _ _ path None).
  - apply others_records. by apply well_formed_records.
  - apply others_names.
Qed.

(** *** The claims *)

(** C1.  On a session file of the data model (none, no JSON, or a JSON
    array of objects), [setup] gets through its write, then returns what
    [load] returns for the same identifier and path in the world it has
    written; and that [load] returns what [Login.from_cookies] makes of
    exactly the new record: the given identifier, the empty password, and
    the two cookies, each stripped. *)
Theorem setup_round_trip sp_dc sp_key identifier path w :
  well_formed (files w !! _session_file path) = true →
  ∃ w',
    setup_store sp_dc sp_key identifier path w = (inr (), w')
    ∧ setup sp_dc sp_key identifier path w = load identifier path None w'
    ∧ load identifier path None w'
      = (from_cookies
           (VDict [("identifier", VStr identifier);
                   ("password", VStr "");
                   ("cookies", VDict [("sp_dc", VStr (strip sp_dc));
                                      ("sp_key", VStr (strip sp_key))])])
           silent_config,
         w').
Proof.
  intros Hwf. eexists. split; [by apply setup_store_well_formed|].
  split.
  - by rewrite setup_at, (setup_store_well_formed _ _ _ _ _ Hwf).
  - apply (load_after_store identifier (strip sp_dc) (strip sp_key) path None).
    + apply others_records. by apply well_formed_records.
    + apply others_names.
Qed.

(** C2, as amended.  When the session file holds text that the JSON
    decoder rejects, [setup] raises nothing of its own: it writes a file
    that holds the new record and nothing else, and its result is the
    result of [Login.from_cookies] on that record. *)
Theorem setup_not_json sp_dc sp_key identifier path w :
  files w !! _session_file path = Some NotJson →
  ∃ w',
    setup_store sp_dc sp_key identifier path w = (inr (), w')
    ∧ files w' !! _session_file path
      = Some (Doc (VList [session_record identifier
                            (strip sp_dc) (strip sp_key)]))
    ∧ setup sp_dc sp_key identifier path w
      = (from_cookies
           (session_record identifier (strip sp_dc) (strip sp_key))
           silent_config,
         w').
Proof.
  intros Hfile.
  assert (well_formed (files w !! _session_file path) = true) as Hwf
    by by rewrite Hfile.
  eexists. split; [by apply setup_store_well_formed|].
  split.
  - simpl files. by rewrite lookup_insert_eq, Hfile.
  - by apply setup_well_formed.
Qed.

(** C3, as amended.  On a session file of the data model (none, text
    that is no JSON, or a JSON array of objects), two calls of [setup]
    with the same identifier leave one record of that identifier, the one
    of the second call, at the end of the array, behind the records of
    the other identifiers in their old order; [list_sessions] has the
    identifier at the end, and has it once when the identifier is not the
    placeholder ["?"] or every record of the file has an identifier. *)
Theorem setup_twice sp_dc1 sp_key1 sp_dc2 sp_key2 identifier path w :
  well_formed (files w !! _session_file path) = true →
  let w1 := (setup sp_dc1 sp_key1 identifier path w).2 in
  let w2 := (setup sp_dc2 sp_key2 identifier path w1).2 in
  let kept := others identifier (records (files w !! _session_file path)) in
  let latest := session_record identifier (strip sp_dc2) (strip sp_key2) in
  files w2 !! _session_file path = Some (Doc (VList (kept ++ [latest])))
  ∧ List.filter (names identifier) (kept ++ [latest]) = [latest]
  ∧ (∃ listed,
       list_sessions path w2 = (inr listed, w2)
       ∧ listed = map (identifier_of (VStr "?")) kept ++ [VStr identifier]
       ∧ (identifier ≠ "?"
          ∨ forallb has_identifier
              (records (files w !! _session_file path)) = true →
          List.filter (λ v, eq_str v identifier) listed
          = [VStr identifier])).
Proof.
  intros Hwf w1 w2 kept latest.
  assert (forallb is_record kept = true) as Hkept
    by (apply others_records; by apply well_formed_records).
  assert (files w1 !! _session_file path
          = Some (Doc (VList (kept ++ [session_record identifier
                                         (strip sp_dc1) (strip sp_key1)]))))
    as Hw1.
  { unfold w1. rewrite (setup_well_formed _ _ _ _ _ Hwf). simpl.
    by rewrite lookup_insert_eq. }
  assert (well_formed (files w1 !! _session_file path) = true) as Hwf1.
  { rewrite Hw1. simpl. rewrite forallb_app, Hkept. done. }
  assert (files w2 !! _session_file path
          = Some (Doc (VList (kept ++ [latest])))) as Hw2.
  { unfold w2. rewrite (setup_well_formed _ _ _ _ _ Hwf1). simpl.
    rewrite lookup_insert_eq, Hw1. simpl records.
    unfold kept. by rewrite others_resaved. }
  split; [done|]. split.
  { rewrite List.filter_app. unfold kept. rewrite others_names.
    simpl. by rewrite String.eqb_refl. }
  eexists. split; [|split; [reflexivity|]].
  - rewrite list_sessions_at, Hw2. simpl py_iter. cbv iota.
    rewrite identifiers_records.
    + by rewrite map_app.
    + by rewrite forallb_app, Hkept.
  - intros Hids. rewrite List.filter_app. unfold kept.
    rewrite (listing_others _ _ (well_formed_records _ Hwf) Hids).
    simpl. by rewrite String.eqb_refl.
Qed.

(** C4.  Without a session file, [load] raises [FileNotFoundError] with
    the path and the advice to run [setup] first.  With a session file
    that is a JSON array of objects none of which is of the identifier,
    it raises [KeyError], and the message holds the list of what each
    record of the file has as its identifier, in file order. *)
Theorem load_errors identifier path cfg w :
  (files w !! _session_file path = None →
   load identifier path cfg w
   = (inl (FileNotFoundError
             ("No session file found at " +:+ _session_file path
              +:+ ". Run SpotifySession.setup('your_sp_dc') first.")),
      w))
  ∧ (∀ items,
       files w !! _session_file path = Some (Doc (VList items)) →
       forallb is_record items = true →
       List.filter (names identifier) items = [] →
       load identifier path cfg w
       = (inl (KeyError
                 [Text ("Session '" +:+ identifier
                        +:+ "' not found. Available sessions: ");
                  Repr (map (identifier_of VNone) items)]),
          w)).
Proof.
  split.
  - intros Hfile. by rewrite load_at, Hfile.
  - intros items Hfile Hrec Hnone. rewrite load_at, Hfile. simpl py_iter.
    cbv iota. by rewrite (first_match_none _ _ Hrec Hnone),
      (identifiers_records _ _ Hrec).
Qed.

(** [remove] on a JSON array of objects: the test on the two lengths is a
    test for a record of the identifier. *)
Lemma remove_records identifier path w items :
  files w !! _session_file path = Some (Doc (VList items)) →
  forallb is_record items = true →
  remove identifier path w
  = if bool_decide (List.filter (names identifier) items = []) then
      (inl (KeyError [Text ("Session '" +:+ identifier +:+ "' not found.")]),
       w)
    else
      (inr (),
       World (<[_session_file path := Doc (VList (others identifier items))]>
                (files w))
             (console w
              ++ ["Session '" +:+ identifier +:+ "' removed from "
                  +:+ _session_file path +:+ "."])).
Proof.
  intros Hfile Hrec. rewrite remove_at, Hfile. simpl py_iter. cbv iota.
  rewrite (keep_others_records _ _ Hrec).
  pose proof (others_length identifier items) as Hlen.
  destruct (Nat.eqb_spec (length (others identifier items)) (length items))
    as [Heq|Hne]; case_bool_decide; tauto.
Qed.

(** C5.  Without a session file, [remove] raises [FileNotFoundError].
    With a session file that is a JSON array of objects, it raises
    [KeyError] exactly when no record is of the identifier, which is when
    the filtered array is as long as the array; it then leaves the world
    as it was.  Otherwise it returns, the file holds the records that are
    not of the identifier, in their order, and one line is printed. *)
Theorem remove_cases identifier path w :
  (files w !! _session_file path = None →
   remove identifier path w
   = (inl (FileNotFoundError
             ("No session file found at " +:+ _session_file path +:+ ".")),
      w))
  ∧ (∀ items,
       files w !! _session_file path = Some (Doc (VList items)) →
       forallb is_record items = true →
       ((∃ msg, (remove identifier path w).1 = inl (KeyError msg))
        ↔ List.filter (names identifier) items = [])
       ∧ (List.filter (names identifier) items = []
          ↔ length (others identifier items) = length items)
       ∧ (List.filter (names identifier) items = [] →
          remove identifier path w
          = (inl (KeyError
                    [Text ("Session '" +:+ identifier +:+ "' not found.")]),
             w))
       ∧ (List.filter (names identifier) items ≠ [] →
          remove identifier path w
          = (inr (),
             World (<[_session_file path :=
                        Doc (VList (others identifier items))]> (files w))
                   (console w
                    ++ ["Session '" +:+ identifier +:+ "' removed from "
                        +:+ _session_file path +:+ "."])))).
Proof.
  split.
  - intros Hfile. by rewrite remove_at, Hfile.
  - intros items Hfile Hrec.
    rewrite (remove_records _ _ _ _ Hfile Hrec).
    split; [|split; [|split]].
    + case_bool_decide; simpl; split; try done.
      * intros _. by eexists.
      * by intros [msg ?].
    + symmetry. apply others_length.
    + intros Hnone. by rewrite bool_decide_eq_true_2.
    + intros Hsome. by rewrite bool_decide_eq_false_2.
Qed.

(** C6.  Without a session file, [list_sessions] returns the empty list.
    With a session file that is a JSON array of objects, it returns, in
    file order, what each record has under ["identifier"], and ["?"] for
    a record without that key.  After [setup] for one identifier and then
    for another one, starting without any session, it returns the two, in
    that order. *)
Theorem list_sessions_cases path w :
  (files w !! _session_file path = None →
   list_sessions path w = (inr [], w))
  ∧ (∀ items,
       files w !! _session_file path = Some (Doc (VList items)) →
       forallb is_record items = true →
       list_sessions path w
       = (inr (map (identifier_of (VStr "?")) items), w)
       ∧ ∀ s, In s items →
           if has_identifier s
           then identifier_of (VStr "?") s = identifier_of VNone s
           else identifier_of (VStr "?") s = VStr "?")
  ∧ (∀ a b sp_dc1 sp_key1 sp_dc2 sp_key2,
       a ≠ b →
       well_formed (files w !! _session_file path) = true →
       records (files w !! _session_file path) = [] →
       let w1 := (setup sp_dc1 sp_key1 a path w).2 in
       let w2 := (setup sp_dc2 sp_key2 b path w1).2 in
       list_sessions path w2 = (inr [VStr a; VStr b], w2)).
Proof.
  split; [|split].
  - intros Hfile. by rewrite list_sessions_at, Hfile.
  - intros items Hfile Hrec. split.
    + rewrite list_sessions_at, Hfile. simpl py_iter. cbv iota.
      by rewrite (identifiers_records _ _ Hrec).
    + intros s Hs. destruct (has_identifier s) eqn:Hid.
      * by apply identifier_of_present.
      * apply identifier_of_missing; [|done].
        by eapply forallb_forall in Hrec.
  - intros a b sp_dc1 sp_key1 sp_dc2 sp_key2 Hab Hwf Hempty w1 w2.
    assert (files w1 !! _session_file path
            = Some (Doc (VList [session_record a
                                  (strip sp_dc1) (strip sp_key1)]))) as Hw1.
    { unfold w1. rewrite (setup_well_formed _ _ _ _ _ Hwf). simpl.
      by rewrite lookup_insert_eq, Hempty. }
    assert (well_formed (files w1 !! _session_file path) = true) as Hwf1
      by by rewrite Hw1.
    rewrite list_sessions_at. unfold w2.
    rewrite (setup_well_formed _ _ _ _ _ Hwf1). simpl files.
    rewrite lookup_insert_eq, Hw1. simpl.
    apply String.eqb_neq in Hab. by rewrite Hab.
Qed.

(** C7.  [setup] for one identifier keeps the records of every other
    identifier as they are, whatever the array in the session file holds
    and whether or not [setup] raises: the records of the other
    identifier are the same values, in the same order, before and after. *)
Theorem setup_frame sp_dc sp_key x y path w items :
  x ≠ y →
  files w !! _session_file path = Some (Doc (VList items)) →
  ∃ items',
    files (setup sp_dc sp_key x path w).2 !! _session_file path
    = Some (Doc (VList items'))
    ∧ List.filter (names y) items' = List.filter (names y) items
    ∧ ∀ record, In record items → names y record = true → In record items'.
Proof.
  intros Hxy Hfile.
  assert (∃ items',
    files (setup sp_dc sp_key x path w).2 !! _session_file path
    = Some (Doc (VList items'))
    ∧ List.filter (names y) items' = List.filter (names y) items)
    as (items' & Hfile' & Hsame).
  { rewrite setup_at, setup_store_at, Hfile. simpl py_iter. cbv iota.
    destruct (keep_others x items) as [e|kept] eqn:Hkeep.
    - by exists items.
    - apply keep_others_inv in Hkeep as [_ ->].
      rewrite load_at. simpl. rewrite lookup_insert_eq.
      eexists. split; [done|].
      rewrite List.filter_app, (others_frame _ _ _ Hxy). simpl.
      apply String.eqb_neq in Hxy. by rewrite Hxy, app_nil_r. }
  exists items'. split; [done|]. split; [done|].
  intros record Hin Hname.
  assert (In record (List.filter (names y) items')) as Hin'
    by (rewrite Hsame; by apply filter_In).
  by apply filter_In in Hin' as [? _].
Qed.

(** C8.  [load] returns what [Login.from_cookies] makes of the first
    record of the identifier in the array, whatever is behind it. *)
Theorem load_first_match identifier path cfg w before record behind :
  files w !! _session_file path
  = Some (Doc (VList (before ++ record :: behind))) →
  forallb is_record before = true →
  List.filter (names identifier) before = [] →
  names identifier record = true →
  load identifier path cfg w
  = (from_cookies record
       (match cfg with None => silent_config | Some c => c end),
     w).
Proof.
  intros Hfile Hrec Hnone Hname. rewrite load_at, Hfile. simpl py_iter.
  cbv iota. by rewrite (first_match_first _ _ _ _ Hrec Hnone Hname).
Qed.

(** C9.  On a session file that [json.load] cannot decode,
    [list_sessions] raises what [json.load] raises. *)
Theorem list_sessions_undecoded path w c e :
  files w !! _session_file path = Some c →
  decode_error c = Some e →
  list_sessions path w = (inl e, w).
Proof.
  intros Hfile Herr. rewrite list_sessions_at, Hfile.
  destruct c; simpl in Herr; by inversion Herr.
Qed.

(** C10.  When [Login.from_cookies] raises on the new record, [setup]
    raises the same, in the world that the write and the print have
    left: the file holds the new record at the end of the array, and the
    line is on the console.  [load] runs in that world. *)
Theorem setup_persists_before_load sp_dc sp_key identifier path w e :
  well_formed (files w !! _session_file path) = true →
  from_cookies (session_record identifier (strip sp_dc) (strip sp_key))
    silent_config = inl e →
  ∃ w',
    setup_store sp_dc sp_key identifier path w = (inr (), w')
    ∧ setup sp_dc sp_key identifier path w = load identifier path None w'
    ∧ setup sp_dc sp_key identifier path w = (inl e, w')
    ∧ files w' !! _session_file path
      = Some (Doc (VList (others identifier
                            (records (files w !! _session_file path))
                          ++ [session_record identifier
                                (strip sp_dc) (strip sp_key)])))
    ∧ console w'
      = console w
        ++ ["Session '" +:+ identifier +:+ "' saved to: "
            +:+ _session_file path].
Proof.
  intros Hwf Hraise. eexists.
  split; [by apply setup_store_well_formed|].
  split; [by rewrite setup_at, (setup_store_well_formed _ _ _ _ _ Hwf)|].
  split; [by rewrite (setup_well_formed _ _ _ _ _ Hwf), Hraise|].
  split; [|done]. simpl. by rewrite lookup_insert_eq.
Qed.

End Properties.

(** * Further properties of the methods *)

(** ** Lists and strings *)

Lemma keep_others_not_records identifier items :
  forallb is_record items = false →
  keep_others identifier items = inl AttributeError.
Proof.
  intros Hnot. destruct (keep_others identifier items) as [e|kept] eqn:E.
  - by apply keep_others_raises in E as ->.
  - apply keep_others_inv in E as [Hrec _]. congruence.
Qed.

Lemma identifiers_not_records default items :
  forallb is_record items = false →
  identifiers default items = inl AttributeError.
Proof.
  induction items as [|s rest IH]; simpl; [discriminate|].
  destruct s; simpl; try done.
  intros Hrest. by rewrite (IH Hrest).
Qed.

Lemma others_none identifier items :
  List.filter (names identifier) items = [] →
  others identifier items = items.
Proof.
  induction items as [|s rest IH]; simpl; [done|].
  destruct (names identifier s); simpl; [discriminate|].
  intros H. by rewrite (IH H).
Qed.

(** The first record of [y] stays the first one when the records of
    another identifier are dropped and anything is appended. *)
Lemma first_match_others x y items extra record :
  x ≠ y →
  forallb is_record items = true →
  first_match y items = inr (Some record) →
  first_match y (others x items ++ extra) = inr (Some record).
Proof.
  intros Hxy. induction items as [|s rest IH]; simpl; [discriminate|].
  intros [Hs Hrest]%andb_prop. destruct s; try discriminate. simpl.
  destruct (eq_str (dict_get items "identifier" VNone) y) eqn:Hy.
  - intros [= <-].
    destruct (eq_str (dict_get items "identifier" VNone) x) eqn:Hx.
    + destruct Hxy. by apply (names_functional x y (VDict items)).
    + simpl. by rewrite Hy.
  - intros Hfound.
    destruct (eq_str (dict_get items "identifier" VNone) x); simpl.
    + by apply IH.
    + rewrite Hy. by apply IH.
Qed.

(** A record whose identifier is no string is of no identifier. *)
Lemma names_not_str identifier s :
  (∀ t, identifier_of VNone s ≠ VStr t) → names identifier s = false.
Proof.
  destruct s; simpl; try done. intros Hnot.
  destruct (dict_get items "identifier" VNone); simpl; try done.
  by destruct (Hnot s).
Qed.

Lemma lstrip_length s : (String.length (lstrip s) ≤ String.length s)%nat.
Proof.
  induction s as [|c s IH]; simpl; [done|].
  destruct (is_space c); simpl; lia.
Qed.

Lemma rstrip_idemp s : rstrip (rstrip s) = rstrip s.
Proof.
  induction s as [|c s IH]; simpl; [done|].
  destruct (rstrip s) as [|d kept] eqn:E.
  - destruct (is_space c) eqn:Hc; simpl; [done|]. by rewrite Hc.
  - change (rstrip (String c (String d kept)))
      with (match rstrip (String d kept) with
            | EmptyString =>
                if is_space c then EmptyString else String c EmptyString
            | String _ _ as tail => String c tail
            end).
    by rewrite IH.
Qed.

(** What has no blank in front keeps its front under [rstrip]. *)
Lemma lstrip_rstrip s : lstrip s = s → lstrip (rstrip s) = rstrip s.
Proof.
  destruct s as [|c s]; simpl; [done|].
  destruct (is_space c) eqn:Hc.
  - intros H. pose proof (lstrip_length s) as Hle.
    rewrite H in Hle. simpl in Hle. lia.
  - intros _. destruct (rstrip s); simpl; by rewrite Hc.
Qed.

Lemma strip_idemp s : strip (strip s) = strip s.
Proof.
  unfold strip. rewrite (lstrip_rstrip (lstrip s) (lstrip_idemp s)).
  apply rstrip_idemp.
Qed.

(** The record of [x] is kept when the records of another [y] go. *)
Lemma others_other_record x y items sp_dc sp_key :
  x ≠ y →
  others y (items ++ [session_record x sp_dc sp_key])
  = others y items ++ [session_record x sp_dc sp_key].
Proof.
  intros Hxy%String.eqb_neq. rewrite others_app. f_equal.
  unfold others. simpl. by rewrite Hxy.
Qed.

Lemma others_comm x y items :
  others x (others y items) = others y (others x items).
Proof.
  induction items as [|s rest IH]; simpl; [done|].
  destruct (names y s) eqn:Hy, (names x s) eqn:Hx; simpl;
    rewrite ?Hx, ?Hy; simpl; by rewrite ?IH.
Qed.

(** ** The methods *)

Section Further.

Variable Login : Type.
Variable Config : Type.
Variable from_cookies : value → Config → result Login.
Variable silent_config : Config.
Variable Path : string → string.
Variable _DEFAULT_SESSION_FILE : string.

Local Abbreviation _session_file :=
  (SpotifySession._session_file Path _DEFAULT_SESSION_FILE).
Local Abbreviation load :=
  (SpotifySession.load Login Config from_cookies silent_config
     Path _DEFAULT_SESSION_FILE).
Local Abbreviation setup_store :=
  (SpotifySession.setup_store Path _DEFAULT_SESSION_FILE).
Local Abbreviation setup :=
  (SpotifySession.setup Login Config from_cookies silent_config
     Path _DEFAULT_SESSION_FILE).
Local Abbreviation list_sessions :=
  (SpotifySession.list_sessions Path _DEFAULT_SESSION_FILE).
Local Abbreviation remove :=
  (SpotifySession.remove Path _DEFAULT_SESSION_FILE).

Lemma load_snd identifier path cfg w : (load identifier path cfg w).2 = w.
Proof. by rewrite (load_at Login). Qed.

(** X1.  [load] and [list_sessions] only read: whatever they return or
    raise, no file and no line of the console has changed. *)
Theorem readers_leave_world identifier path cfg w :
  (load identifier path cfg w).2 = w ∧ (list_sessions path w).2 = w.
Proof. split; [apply load_snd|by rewrite list_sessions_at]. Qed.


(** X5.  An array with an element that is no object stops the three
    methods that look at every element: [list_sessions], [remove] and
    [setup] raise [AttributeError], and the world stays as it is. *)
Theorem non_object_element sp_dc sp_key identifier path w items :
  files w !! _session_file path = Some (Doc (VList items)) →
  forallb is_record items = false →
  list_sessions path w = (inl AttributeError, w)
  ∧ remove identifier path w = (inl AttributeError, w)
  ∧ setup sp_dc sp_key identifier path w = (inl AttributeError, w).
Proof.
  intros Hfile Hnot. split; [|split].
  - rewrite list_sessions_at, Hfile. simpl.
    by rewrite (identifiers_not_records _ _ Hnot).
  - rewrite remove_at, Hfile. simpl.
    by rewrite (keep_others_not_records _ _ Hnot).
  - rewrite setup_at, setup_store_at, Hfile. simpl.
    by rewrite (keep_others_not_records _ _ Hnot).
Qed.

(** X6.  A session file whose JSON is [null], a boolean or a number
    makes each of the four methods raise [TypeError], with the world as
    it was. *)
Theorem scalar_document sp_dc sp_key identifier path cfg w v :
  files w !! _session_file path = Some (Doc v) →
  scalar v = true →
  load identifier path cfg w = (inl TypeError, w)
  ∧ list_sessions path w = (inl TypeError, w)
  ∧ remove identifier path w = (inl TypeError, w)
  ∧ setup sp_dc sp_key identifier path w = (inl TypeError, w).
Proof.
  intros Hfile Hv.
  rewrite (load_at Login), list_sessions_at, remove_at, setup_at,
    setup_store_at, Hfile.
  by destruct v.
Qed.

(** X7.  A session file whose JSON is a container without elements (the
    empty array, the empty object, the empty string) is an empty store
    for all four methods: an empty listing, [KeyError] from [load] with
    an empty list of identifiers and from [remove], and a [setup] that
    writes an array holding the new record alone. *)
Theorem empty_document sp_dc sp_key identifier path cfg w v :
  files w !! _session_file path = Some (Doc v) →
  py_iter v = inr [] →
  list_sessions path w = (inr [], w)
  ∧ load identifier path cfg w
    = (inl (KeyError
              [Text ("Session '" +:+ identifier
                     +:+ "' not found. Available sessions: ");
               Repr []]),
       w)
  ∧ remove identifier path w
    = (inl (KeyError [Text ("Session '" +:+ identifier +:+ "' not found.")]),
       w)
  ∧ files (setup sp_dc sp_key identifier path w).2 !! _session_file path
    = Some (Doc (VList [session_record identifier
                          (strip sp_dc) (strip sp_key)])).
Proof.
  intros Hfile Hiter.
  rewrite (load_at Login), list_sessions_at, remove_at, setup_at,
    setup_store_at, Hfile, Hiter.
  simpl. repeat split; try done.
  rewrite (load_at Login). simpl. by rewrite lookup_insert_eq.
Qed.

(** X8.  After a [remove] that has found the identifier in an array of
    objects, the file is still there, with the other records in their
    order (an empty array when there are none); [list_sessions] lists
    them; [load] and a second [remove] of the identifier raise
    [KeyError]. *)
Theorem remove_then_gone identifier path cfg w items :
  files w !! _session_file path = Some (Doc (VList items)) →
  forallb is_record items = true →
  List.filter (names identifier) items ≠ [] →
  let w' := (remove identifier path w).2 in
  files w' !! _session_file path
  = Some (Doc (VList (others identifier items)))
  ∧ list_sessions path w'
    = (inr (map (identifier_of (VStr "?")) (others identifier items)), w')
  ∧ load identifier path cfg w'
    = (inl (KeyError
              [Text ("Session '" +:+ identifier
                     +:+ "' not found. Available sessions: ");
               Repr (map (identifier_of VNone) (others identifier items))]),
       w')
  ∧ remove identifier path w'
    = (inl (KeyError [Text ("Session '" +:+ identifier +:+ "' not found.")]),
       w').
Proof.
  intros Hfile Hrec Hsome w'.
  pose proof (others_records identifier items Hrec) as Hrec'.
  pose proof (others_names identifier items) as Hnone'.
  assert (files w' !! _session_file path
          = Some (Doc (VList (others identifier items)))) as Hfile'.
  { unfold w'. rewrite (remove_records _ _ _ _ _ _ Hfile Hrec).
    rewrite bool_decide_eq_false_2 by done. simpl.
    by rewrite lookup_insert_eq. }
  split; [done|]. split; [|split].
  - rewrite list_sessions_at, Hfile'. simpl.
    by rewrite (identifiers_records _ _ Hrec').
  - rewrite (load_at Login), Hfile'. simpl.
    by rewrite (first_match_none _ _ Hrec' Hnone'),
      (identifiers_records _ _ Hrec').
  - rewrite (remove_records _ _ _ _ _ _ Hfile' Hrec').
    by rewrite bool_decide_eq_true_2.
Qed.

(** X9.  On a session file of the data model, [remove] right after
    [setup] of the same identifier returns, and the file holds the records
    of the other identifiers.  When the file was an array without a
    record of the identifier, the file decodes again to that array: the
    same records in the same order. *)
Theorem setup_then_remove sp_dc sp_key identifier path w :
  well_formed (files w !! _session_file path) = true →
  ∃ w2,
    remove identifier path (setup sp_dc sp_key identifier path w).2
    = (inr (), w2)
    ∧ files w2 !! _session_file path
      = Some (Doc (VList (others identifier
                            (records (files w !! _session_file path)))))
    ∧ ∀ items,
        files w !! _session_file path = Some (Doc (VList items)) →
        List.filter (names identifier) items = [] →
        files w2 !! _session_file path = Some (Doc (VList items)).
Proof.
  intros Hwf.
  rewrite (setup_well_formed _ _ _ _ _ _ _ _ _ _ _ Hwf).
  set (kept := others identifier (records (files w !! _session_file path))).
  set (record := session_record identifier (strip sp_dc) (strip sp_key)).
  assert (forallb is_record (kept ++ [record]) = true) as Hrec.
  { rewrite forallb_app. unfold kept.
    rewrite others_records by by apply well_formed_records. done. }
  simpl snd.
  erewrite remove_records; [|simpl; by rewrite lookup_insert_eq|exact Hrec].
  rewrite bool_decide_eq_false_2.
  2:{ rewrite List.filter_app. unfold kept. rewrite others_names. simpl.
      by rewrite String.eqb_refl. }
  eexists. split; [reflexivity|]. simpl files.
  unfold kept at 1, record. rewrite others_resaved. fold kept.
  split; [by rewrite lookup_insert_eq|].
  intros items Hfile Hnone. rewrite lookup_insert_eq.
  unfold kept, record. rewrite ?others_resaved, Hfile. simpl records.
  by rewrite (others_none _ _ Hnone).
Qed.

(** X10.  A session that [load] returns a client for is not lost by
    work on another identifier: after [setup] or [remove] of another
    identifier, returning or raising, [load] returns the same client. *)
Theorem load_survives_others sp_dc sp_key x y path cfg w login :
  x ≠ y →
  (load y path cfg w).1 = inr login →
  (load y path cfg (setup sp_dc sp_key x path w).2).1 = inr login
  ∧ (load y path cfg (remove x path w).2).1 = inr login.
Proof.
  intros Hxy Hload.
  assert (∃ items record,
    files w !! _session_file path = Some (Doc (VList items))
    ∧ first_match y items = inr (Some record)
    ∧ from_cookies record
        (match cfg with None => silent_config | Some c => c end)
      = inr login) as (items & record & Hfile & Hfirst & Hmade).
  { rewrite (load_at Login) in Hload. simpl in Hload.
    destruct (files w !! _session_file path) as [[| |v]|]; try done.
    destruct (py_iter v) as [e|items] eqn:Hiter; [done|].
    destruct (first_match y items) as [e|[record|]] eqn:Hfirst; try done.
    - destruct v; simpl in Hiter; try discriminate.
      + injection Hiter as <-.
        destruct s; simpl in Hfirst; discriminate.
      + injection Hiter as <-. by exists items0, record.
      + injection Hiter as <-.
        destruct items0; simpl in Hfirst; discriminate.
    - by destruct (identifiers VNone items). }
  assert (∀ extra, forallb is_record items = true →
    ∀ fs out,
      (load y path cfg
         (World (<[_session_file path :=
                     Doc (VList (others x items ++ extra))]> fs) out)).1
      = inr login) as Hafter.
  { intros extra Hrec fs out. rewrite (load_at Login). simpl.
    rewrite lookup_insert_eq. simpl.
    by rewrite (first_match_others x y items extra record Hxy Hrec Hfirst). }
  split.
  - rewrite setup_at, setup_store_at, Hfile. simpl py_iter. cbv iota.
    destruct (keep_others x items) as [e|kept] eqn:Hkeep; [done|].
    apply keep_others_inv in Hkeep as [Hrec ->].
    rewrite load_snd. by apply Hafter.
  - rewrite remove_at, Hfile. simpl py_iter. cbv iota.
    destruct (keep_others x items) as [e|kept] eqn:Hkeep; [done|].
    apply keep_others_inv in Hkeep as [Hrec ->].
    destruct (_ =? _)%nat; [done|]. simpl snd.
    rewrite <- (app_nil_r (others x items)). by apply Hafter.
Qed.

(** X11.  Blanks around the secrets do not count: [setup] with two
    secrets and [setup] with the same secrets stripped are the same run,
    with the same result and the same world. *)
Theorem setup_strips sp_dc sp_key identifier path w :
  setup sp_dc sp_key identifier path w
  = setup (strip sp_dc) (strip sp_key) identifier path w.
Proof.
  rewrite !setup_at, !setup_store_at, !strip_idemp. done.
Qed.

(** X12.  In an array of objects none of which has a string as its
    identifier, no identifier finds anything: [load] and [remove] raise
    [KeyError] for every identifier, and the world stays as it is. *)
Theorem no_string_identifier identifier path cfg w items :
  files w !! _session_file path = Some (Doc (VList items)) →
  forallb is_record items = true →
  (∀ s, In s items → ∀ t, identifier_of VNone s ≠ VStr t) →
  load identifier path cfg w
  = (inl (KeyError
            [Text ("Session '" +:+ identifier
                   +:+ "' not found. Available sessions: ");
             Repr (map (identifier_of VNone) items)]),
     w)
  ∧ remove identifier path w
    = (inl (KeyError [Text ("Session '" +:+ identifier +:+ "' not found.")]),
       w).
Proof.
  intros Hfile Hrec Hnot.
  assert (List.filter (names identifier) items = []) as Hnone.
  { clear Hfile Hrec. induction items as [|s rest IH]; simpl; [done|].
    rewrite (names_not_str identifier s) by (apply Hnot; by left).
    apply IH. intros s' Hs'. apply Hnot. by right. }
  split.
  - rewrite (load_at Login), Hfile. simpl.
    by rewrite (first_match_none _ _ Hrec Hnone),
      (identifiers_records _ _ Hrec).
  - rewrite (remove_records _ _ _ _ _ _ Hfile Hrec).
    by rewrite bool_decide_eq_true_2.
Qed.

(** The session file after [setup], on a session file of the data
    model; it is again one of the data model. *)
Lemma setup_file sp_dc sp_key identifier path w :
  well_formed (files w !! _session_file path) = true →
  files (setup sp_dc sp_key identifier path w).2 !! _session_file path
  = Some (Doc (VList (others identifier
                        (records (files w !! _session_file path))
                      ++ [session_record identifier
                            (strip sp_dc) (strip sp_key)]))).
Proof.
  intros Hwf. rewrite (setup_well_formed _ _ _ _ _ _ _ _ _ _ _ Hwf).
  simpl. by rewrite lookup_insert_eq.
Qed.

Lemma setup_file_well_formed sp_dc sp_key identifier path w :
  well_formed (files w !! _session_file path) = true →
  well_formed
    (files (setup sp_dc sp_key identifier path w).2 !! _session_file path)
  = true.
Proof.
  intros Hwf. rewrite (setup_file _ _ _ _ _ Hwf). simpl.
  rewrite forallb_app, others_records by by apply well_formed_records.
  done.
Qed.

(** X13.  Two calls of [setup] for two identifiers leave the same
    records whichever comes first; the order of the calls is the order
    of the two new records at the end of the array. *)
Theorem setup_order sp_dc1 sp_key1 sp_dc2 sp_key2 x y path w :
  x ≠ y →
  well_formed (files w !! _session_file path) = true →
  let rx := session_record x (strip sp_dc1) (strip sp_key1) in
  let ry := session_record y (strip sp_dc2) (strip sp_key2) in
  let kept := others y (others x (records (files w !! _session_file path))) in
  files (setup sp_dc2 sp_key2 y path (setup sp_dc1 sp_key1 x path w).2).2
    !! _session_file path
  = Some (Doc (VList (kept ++ [rx; ry])))
  ∧ files (setup sp_dc1 sp_key1 x path (setup sp_dc2 sp_key2 y path w).2).2
      !! _session_file path
    = Some (Doc (VList (kept ++ [ry; rx]))).
Proof.
  intros Hxy Hwf rx ry kept.
  assert (y ≠ x) as Hyx by congruence.
  split.
  - rewrite (setup_file _ _ _ _ _ (setup_file_well_formed _ _ _ _ _ Hwf)).
    rewrite (setup_file _ _ _ _ _ Hwf). simpl records.
    rewrite (others_other_record _ _ _ _ _ Hxy).
    by rewrite <- app_assoc.
  - rewrite (setup_file _ _ _ _ _ (setup_file_well_formed _ _ _ _ _ Hwf)).
    rewrite (setup_file _ _ _ _ _ Hwf). simpl records.
    rewrite (others_other_record _ _ _ _ _ Hyx), others_comm.
    by rewrite <- app_assoc.
Qed.

(** X14.  [setup] replaces by itself: on an array of objects, [remove]
    of the identifier before [setup] makes no difference to the files. *)
Theorem remove_then_setup sp_dc sp_key identifier path w items :
  files w !! _session_file path = Some (Doc (VList items)) →
  forallb is_record items = true →
  files (setup sp_dc sp_key identifier path (remove identifier path w).2).2
  = files (setup sp_dc sp_key identifier path w).2.
Proof.
  intros Hfile Hrec.
  assert (well_formed (files w !! _session_file path) = true) as Hwf
    by by rewrite Hfile.
  rewrite (remove_records _ _ _ _ _ _ Hfile Hrec).
  case_bool_decide as Hnone; [done|]. simpl snd.
  rewrite (setup_well_formed _ _ _ _ _ _ _ _ _ _ _ Hwf).
  rewrite setup_well_formed.
  - simpl. rewrite lookup_insert_eq, insert_insert_eq, Hfile. simpl.
    by rewrite others_idemp.
  - simpl. rewrite lookup_insert_eq. simpl. by apply others_records.
Qed.

End Further.

(** * The theorems at concrete inputs *)

Lemma setup_round_trip_witness :
  well_formed (files Demo.only_bob !! "sessions.json") = true
  ∧ ∃ w',
      Demo.setup_store " dc-1 " "key-1  " "alice" Demo.here Demo.only_bob
      = (inr (), w')
      ∧ Demo.setup " dc-1 " "key-1  " "alice" Demo.here Demo.only_bob
        = Demo.load "alice" Demo.here None w'
      ∧ Demo.load "alice" Demo.here None w' = (inr Demo.alice, w').
Proof.
  split; [reflexivity|].
  apply (setup_round_trip value unit Demo.accept () id Demo.home
           " dc-1 " "key-1  " "alice" Demo.here Demo.only_bob).
  reflexivity.
Defined.

(** A file of numbers is an array, but not one of objects: the filter
    raises, nothing is caught, nothing is written. *)
Lemma setup_array_of_numbers_raises :
  well_formed (files Demo.numbers !! "sessions.json") = false
  ∧ (Demo.setup "dc-1" "key-1" "alice" Demo.here Demo.numbers).1
    = inl AttributeError
  ∧ files (Demo.setup "dc-1" "key-1" "alice" Demo.here Demo.numbers).2
      !! "sessions.json"
    = Some (Doc (VList [VInt 1])).
Proof. repeat split; reflexivity. Qed.

(** Bytes that are no text raise before the JSON decoder is reached. *)
Example setup_undecodable_raises :
  Demo.setup "dc-1" "key-1" "alice" Demo.here (Demo.holding Undecodable)
  = (inl UnicodeDecodeError, Demo.holding Undecodable).
Proof. reflexivity. Qed.

Lemma setup_not_json_witness :
  files (Demo.holding NotJson) !! "sessions.json" = Some NotJson
  ∧ ∃ w',
      Demo.setup_store " dc-1 " "key-1" "alice" Demo.here
        (Demo.holding NotJson) = (inr (), w')
      ∧ files w' !! "sessions.json" = Some (Doc (VList [Demo.alice]))
      ∧ Demo.setup " dc-1 " "key-1" "alice" Demo.here (Demo.holding NotJson)
        = (inr Demo.alice, w').
Proof.
  split; [reflexivity|].
  apply (setup_not_json value unit Demo.accept () id Demo.home
           " dc-1 " "key-1" "alice" Demo.here (Demo.holding NotJson)).
  reflexivity.
Defined.

Lemma setup_twice_witness :
  well_formed (files Demo.both !! "sessions.json") = true
  ∧ (let w1 := (Demo.setup "dc-2" "key-2" "alice" Demo.here Demo.both).2 in
     let w2 := (Demo.setup "dc-3" "key-3" "alice" Demo.here w1).2 in
     files w2 !! "sessions.json"
     = Some (Doc (VList [Demo.bob; Demo.alice_again]))
     ∧ List.filter (names "alice") [Demo.bob; Demo.alice_again]
       = [Demo.alice_again]
     ∧ ∃ listed,
         Demo.list_sessions Demo.here w2 = (inr listed, w2)
         ∧ listed = [VStr "bob"; VStr "alice"]
         ∧ ("alice" ≠ "?"
            ∨ forallb has_identifier
                (records (files Demo.both !! "sessions.json")) = true →
            List.filter (λ v, eq_str v "alice") listed = [VStr "alice"])).
Proof.
  split; [reflexivity|].
  exact (setup_twice value unit Demo.accept () id Demo.home
           "dc-2" "key-2" "dc-3" "key-3" "alice" Demo.here Demo.both
           eq_refl).
Defined.

(** Two file states on which two calls of [setup] do not do what they do
    on the others.  An array of objects whose record has no identifier:
    saved twice under ["?"], the listing has ["?"] twice.  An array of
    numbers: both calls raise, the file is as it was, and it has no
    record of the identifier. *)
Lemma setup_twice_not_every_file :
  (well_formed (files Demo.blank_record !! "sessions.json") = true
   ∧ Demo.list_sessions Demo.here (Demo.setup_twice_as "?" Demo.blank_record)
     = (inr [VStr "?"; VStr "?"], Demo.setup_twice_as "?" Demo.blank_record)
   ∧ List.filter (λ v, eq_str v "?") [VStr "?"; VStr "?"] ≠ [VStr "?"])
  ∧ (files Demo.numbers !! "sessions.json" = Some (Doc (VList [VInt 1]))
     ∧ (Demo.setup "dc-1" "key-1" "alice" Demo.here Demo.numbers).1
       = inl AttributeError
     ∧ files (Demo.setup_twice_as "alice" Demo.numbers) !! "sessions.json"
       = Some (Doc (VList [VInt 1]))
     ∧ List.filter (names "alice") [VInt 1] = []).
Proof. repeat split; try reflexivity. discriminate. Qed.

Lemma load_errors_witness :
  files Demo.nothing !! "sessions.json" = None
  ∧ Demo.load "alice" Demo.here None Demo.nothing
    = (inl (FileNotFoundError
              ("No session file found at sessions.json. "
               +:+ "Run SpotifySession.setup('your_sp_dc') first.")),
       Demo.nothing)
  ∧ forallb is_record [Demo.bob; VDict []] = true
  ∧ List.filter (names "alice") [Demo.bob; VDict []] = []
  ∧ Demo.load "alice" Demo.here None
      (Demo.holding (Doc (VList [Demo.bob; VDict []])))
    = (inl (KeyError
              [Text "Session 'alice' not found. Available sessions: ";
               Repr [VStr "bob"; VNone]]),
       Demo.holding (Doc (VList [Demo.bob; VDict []]))).
Proof.
  split; [reflexivity|]. split.
  - apply (proj1 (load_errors value unit Demo.accept () id Demo.home
                    "alice" Demo.here None Demo.nothing)).
    reflexivity.
  - split; [reflexivity|]. split; [reflexivity|].
    apply (proj2 (load_errors value unit Demo.accept () id Demo.home
                    "alice" Demo.here None
                    (Demo.holding (Doc (VList [Demo.bob; VDict []]))))
             [Demo.bob; VDict []]);
      reflexivity.
Defined.

Lemma remove_cases_witness :
  Demo.remove "alice" Demo.here Demo.nothing
  = (inl (FileNotFoundError "No session file found at sessions.json."),
     Demo.nothing)
  ∧ Demo.remove "carol" Demo.here Demo.both
    = (inl (KeyError [Text "Session 'carol' not found."]), Demo.both)
  ∧ Demo.remove "alice" Demo.here Demo.both
    = (inr (),
       World {["sessions.json" := Doc (VList [Demo.bob])]}
             ["Session 'alice' removed from sessions.json."]).
Proof.
  split; [|split].
  - apply (proj1 (remove_cases id Demo.home "alice" Demo.here Demo.nothing)).
    reflexivity.
  - apply (proj2 (remove_cases id Demo.home "carol" Demo.here Demo.both)
             [Demo.alice; Demo.bob] eq_refl eq_refl).
    reflexivity.
  - apply (proj2 (remove_cases id Demo.home "alice" Demo.here Demo.both)
             [Demo.alice; Demo.bob] eq_refl eq_refl).
    discriminate.
Defined.

Lemma list_sessions_cases_witness :
  Demo.list_sessions Demo.here Demo.nothing = (inr [], Demo.nothing)
  ∧ Demo.list_sessions Demo.here Demo.unnamed
    = (inr [VStr "bob"; VStr "?"; VStr "alice"], Demo.unnamed)
  ∧ (let w1 := (Demo.setup "dc-1" "key-1" "a" Demo.here Demo.nothing).2 in
     let w2 := (Demo.setup "dc-2" "key-2" "b" Demo.here w1).2 in
     Demo.list_sessions Demo.here w2 = (inr [VStr "a"; VStr "b"], w2)).
Proof.
  split; [|split].
  - apply (proj1 (list_sessions_cases value unit Demo.accept () id Demo.home
                    Demo.here Demo.nothing)).
    reflexivity.
  - apply (proj1 (proj2 (list_sessions_cases value unit Demo.accept () id
                           Demo.home Demo.here Demo.unnamed))
             [Demo.bob; VDict []; Demo.alice] eq_refl eq_refl).
  - apply (proj2 (proj2 (list_sessions_cases value unit Demo.accept () id
                           Demo.home Demo.here Demo.nothing))
             "a" "b" "dc-1" "key-1" "dc-2" "key-2").
    + discriminate.
    + reflexivity.
    + reflexivity.
Defined.

Lemma setup_frame_witness :
  "alice" ≠ "bob"
  ∧ files Demo.both !! "sessions.json"
    = Some (Doc (VList [Demo.alice; Demo.bob]))
  ∧ Demo.setup "dc-3" "key-3" "alice" Demo.here Demo.both
    = (inr Demo.alice_again,
       World {["sessions.json" := Doc (VList [Demo.bob; Demo.alice_again])]}
             ["Session 'alice' saved to: sessions.json"])
  ∧ ∃ items',
      files (Demo.setup "dc-3" "key-3" "alice" Demo.here Demo.both).2
        !! "sessions.json" = Some (Doc (VList items'))
      ∧ List.filter (names "bob") items' = [Demo.bob]
      ∧ ∀ record,
          In record [Demo.alice; Demo.bob] →
          names "bob" record = true → In record items'.
Proof.
  split; [discriminate|]. split; [reflexivity|]. split; [reflexivity|].
  apply (setup_frame value unit Demo.accept () id Demo.home
           "dc-3" "key-3" "alice" "bob" Demo.here Demo.both
           [Demo.alice; Demo.bob]).
  - discriminate.
  - reflexivity.
Defined.

Lemma load_first_match_witness :
  files Demo.hand_edited !! "sessions.json"
  = Some (Doc (VList ([Demo.bob] ++ Demo.alice :: [Demo.alice_again; VInt 1])))
  ∧ forallb is_record [Demo.bob] = true
  ∧ List.filter (names "alice") [Demo.bob] = []
  ∧ names "alice" Demo.alice = true
  ∧ Demo.load "alice" Demo.here None Demo.hand_edited
    = (inr Demo.alice, Demo.hand_edited).
Proof.
  split; [reflexivity|]. split; [reflexivity|]. split; [reflexivity|].
  split; [reflexivity|].
  apply (load_first_match value unit Demo.accept () id Demo.home
           "alice" Demo.here None Demo.hand_edited
           [Demo.bob] Demo.alice [Demo.alice_again; VInt 1]);
    reflexivity.
Defined.

Lemma list_sessions_undecoded_witness :
  files (Demo.holding NotJson) !! "sessions.json" = Some NotJson
  ∧ decode_error NotJson = Some JSONDecodeError
  ∧ Demo.list_sessions Demo.here (Demo.holding NotJson)
    = (inl JSONDecodeError, Demo.holding NotJson).
Proof.
  split; [reflexivity|]. split; [reflexivity|].
  apply (list_sessions_undecoded id Demo.home Demo.here
           (Demo.holding NotJson) NotJson JSONDecodeError);
    reflexivity.
Defined.

Lemma setup_persists_before_load_witness :
  well_formed (files Demo.only_bob !! "sessions.json") = true
  ∧ Demo.refuse Demo.alice ()
    = inl (OtherError "ValueError" "Invalid dump format")
  ∧ ∃ w',
      Demo.setup_store "dc-1" "key-1" "alice" Demo.here Demo.only_bob
      = (inr (), w')
      ∧ Demo.setup_refused "dc-1" "key-1" "alice" Demo.here Demo.only_bob
        = Demo.load_refused "alice" Demo.here None w'
      ∧ Demo.setup_refused "dc-1" "key-1" "alice" Demo.here Demo.only_bob
        = (inl (OtherError "ValueError" "Invalid dump format"), w')
      ∧ files w' !! "sessions.json"
        = Some (Doc (VList [Demo.bob; Demo.alice]))
      ∧ console w' = ["Session 'alice' saved to: sessions.json"].
Proof.
  split; [reflexivity|]. split; [reflexivity|].
  apply (setup_persists_before_load value unit Demo.refuse () id Demo.home
           "dc-1" "key-1" "alice" Demo.here Demo.only_bob
           (OtherError "ValueError" "Invalid dump format"));
    reflexivity.
Defined.

(** * The further properties at concrete inputs *)


Lemma non_object_element_witness :
  files Demo.hand_edited !! "sessions.json"
  = Some (Doc (VList [Demo.bob; Demo.alice; Demo.alice_again; VInt 1]))
  ∧ forallb is_record [Demo.bob; Demo.alice; Demo.alice_again; VInt 1]
    = false
  ∧ Demo.list_sessions Demo.here Demo.hand_edited
    = (inl AttributeError, Demo.hand_edited)
  ∧ Demo.remove "alice" Demo.here Demo.hand_edited
    = (inl AttributeError, Demo.hand_edited)
  ∧ Demo.setup "dc-3" "key-3" "alice" Demo.here Demo.hand_edited
    = (inl AttributeError, Demo.hand_edited).
Proof.
  split; [reflexivity|]. split; [reflexivity|].
  apply (non_object_element value unit Demo.accept () id Demo.home
           "dc-3" "key-3" "alice" Demo.here Demo.hand_edited
           [Demo.bob; Demo.alice; Demo.alice_again; VInt 1]);
    reflexivity.
Defined.

Lemma scalar_document_witness :
  files (Demo.holding (Doc (VInt 42))) !! "sessions.json"
  = Some (Doc (VInt 42))
  ∧ scalar (VInt 42) = true
  ∧ Demo.load "alice" Demo.here None (Demo.holding (Doc (VInt 42)))
    = (inl TypeError, Demo.holding (Doc (VInt 42)))
  ∧ Demo.list_sessions Demo.here (Demo.holding (Doc (VInt 42)))
    = (inl TypeError, Demo.holding (Doc (VInt 42)))
  ∧ Demo.remove "alice" Demo.here (Demo.holding (Doc (VInt 42)))
    = (inl TypeError, Demo.holding (Doc (VInt 42)))
  ∧ Demo.setup "dc-1" "key-1" "alice" Demo.here
      (Demo.holding (Doc (VInt 42)))
    = (inl TypeError, Demo.holding (Doc (VInt 42))).
Proof.
  split; [reflexivity|]. split; [reflexivity|].
  apply (scalar_document value unit Demo.accept () id Demo.home
           "dc-1" "key-1" "alice" Demo.here None
           (Demo.holding (Doc (VInt 42))) (VInt 42));
    reflexivity.
Defined.

Lemma empty_document_witness :
  files (Demo.holding (Doc (VDict []))) !! "sessions.json"
  = Some (Doc (VDict []))
  ∧ py_iter (VDict []) = inr []
  ∧ Demo.list_sessions Demo.here (Demo.holding (Doc (VDict [])))
    = (inr [], Demo.holding (Doc (VDict [])))
  ∧ Demo.load "alice" Demo.here None (Demo.holding (Doc (VDict [])))
    = (inl (KeyError
              [Text "Session 'alice' not found. Available sessions: ";
               Repr []]),
       Demo.holding (Doc (VDict [])))
  ∧ Demo.remove "alice" Demo.here (Demo.holding (Doc (VDict [])))
    = (inl (KeyError [Text "Session 'alice' not found."]),
       Demo.holding (Doc (VDict [])))
  ∧ files (Demo.setup "dc-1" "key-1" "alice" Demo.here
             (Demo.holding (Doc (VDict [])))).2 !! "sessions.json"
    = Some (Doc (VList [Demo.alice])).
Proof.
  split; [reflexivity|]. split; [reflexivity|].
  apply (empty_document value unit Demo.accept () id Demo.home
           "dc-1" "key-1" "alice" Demo.here None
           (Demo.holding (Doc (VDict []))) (VDict []));
    reflexivity.
Defined.

Lemma remove_then_gone_witness :
  files (Demo.holding (Doc (VList [Demo.alice]))) !! "sessions.json"
  = Some (Doc (VList [Demo.alice]))
  ∧ forallb is_record [Demo.alice] = true
  ∧ List.filter (names "alice") [Demo.alice] ≠ []
  ∧ (let w' := (Demo.remove "alice" Demo.here
                  (Demo.holding (Doc (VList [Demo.alice])))).2 in
     files w' !! "sessions.json" = Some (Doc (VList []))
     ∧ Demo.list_sessions Demo.here w' = (inr [], w')
     ∧ Demo.load "alice" Demo.here None w'
       = (inl (KeyError
                 [Text "Session 'alice' not found. Available sessions: ";
                  Repr []]),
          w')
     ∧ Demo.remove "alice" Demo.here w'
       = (inl (KeyError [Text "Session 'alice' not found."]), w')).
Proof.
  split; [reflexivity|]. split; [reflexivity|]. split; [discriminate|].
  apply (remove_then_gone value unit Demo.accept () id Demo.home
           "alice" Demo.here None
           (Demo.holding (Doc (VList [Demo.alice]))) [Demo.alice]).
  - reflexivity.
  - reflexivity.
  - discriminate.
Defined.

Lemma setup_then_remove_witness :
  well_formed (files Demo.only_bob !! "sessions.json") = true
  ∧ ∃ w2,
      Demo.remove "alice" Demo.here
        (Demo.setup "dc-1" "key-1" "alice" Demo.here Demo.only_bob).2
      = (inr (), w2)
      ∧ files w2 !! "sessions.json" = Some (Doc (VList [Demo.bob]))
      ∧ ∀ items,
          files Demo.only_bob !! "sessions.json" = Some (Doc (VList items)) →
          List.filter (names "alice") items = [] →
          files w2 !! "sessions.json" = Some (Doc (VList items)).
Proof.
  split; [reflexivity|].
  apply (setup_then_remove value unit Demo.accept () id Demo.home
           "dc-1" "key-1" "alice" Demo.here Demo.only_bob).
  reflexivity.
Defined.

Lemma load_survives_others_witness :
  "alice" ≠ "bob"
  ∧ (Demo.load "bob" Demo.here None Demo.both).1 = inr Demo.bob
  ∧ (Demo.load "bob" Demo.here None
       (Demo.setup "dc-3" "key-3" "alice" Demo.here Demo.both).2).1
    = inr Demo.bob
  ∧ (Demo.load "bob" Demo.here None
       (Demo.remove "alice" Demo.here Demo.both).2).1
    = inr Demo.bob.
Proof.
  split; [discriminate|]. split; [reflexivity|].
  apply (load_survives_others value unit Demo.accept () id Demo.home
           "dc-3" "key-3" "alice" "bob" Demo.here None Demo.both Demo.bob).
  - discriminate.
  - reflexivity.
Defined.

Lemma no_string_identifier_witness :
  files Demo.odd_identifiers !! "sessions.json"
  = Some (Doc (VList [Demo.numbered; Demo.nameless; VDict []]))
  ∧ forallb is_record [Demo.numbered; Demo.nameless; VDict []] = true
  ∧ Demo.load "7" Demo.here None Demo.odd_identifiers
    = (inl (KeyError
              [Text "Session '7' not found. Available sessions: ";
               Repr [VInt 7; VNone; VNone]]),
       Demo.odd_identifiers)
  ∧ Demo.remove "7" Demo.here Demo.odd_identifiers
    = (inl (KeyError [Text "Session '7' not found."]), Demo.odd_identifiers).
Proof.
  split; [reflexivity|]. split; [reflexivity|].
  apply (no_string_identifier value unit Demo.accept () id Demo.home
           "7" Demo.here None Demo.odd_identifiers
           [Demo.numbered; Demo.nameless; VDict []]).
  - reflexivity.
  - reflexivity.
  - intros s [<-|[<-|[<-|[]]]] t; discriminate.
Defined.

Lemma setup_order_witness :
  "alice" ≠ "carol"
  ∧ well_formed (files Demo.only_bob !! "sessions.json") = true
  ∧ files (Demo.setup "dc-4" "key-4" "carol" Demo.here
             (Demo.setup "dc-1" "key-1" "alice" Demo.here
                Demo.only_bob).2).2 !! "sessions.json"
    = Some (Doc (VList [Demo.bob; Demo.alice;
                        session_record "carol" "dc-4" "key-4"]))
  ∧ files (Demo.setup "dc-1" "key-1" "alice" Demo.here
             (Demo.setup "dc-4" "key-4" "carol" Demo.here
                Demo.only_bob).2).2 !! "sessions.json"
    = Some (Doc (VList [Demo.bob; session_record "carol" "dc-4" "key-4";
                        Demo.alice])).
Proof.
  split; [discriminate|]. split; [reflexivity|].
  apply (setup_order value unit Demo.accept () id Demo.home
           "dc-1" "key-1" "dc-4" "key-4" "alice" "carol" Demo.here
           Demo.only_bob).
  - discriminate.
  - reflexivity.
Defined.

Lemma remove_then_setup_witness :
  files Demo.both !! "sessions.json"
  = Some (Doc (VList [Demo.alice; Demo.bob]))
  ∧ forallb is_record [Demo.alice; Demo.bob] = true
  ∧ files (Demo.setup "dc-3" "key-3" "alice" Demo.here
             (Demo.remove "alice" Demo.here Demo.both).2).2
    = files (Demo.setup "dc-3" "key-3" "alice" Demo.here Demo.both).2.
Proof.
  split; [reflexivity|]. split; [reflexivity|].
  apply (remove_then_setup value unit Demo.accept () id Demo.home
           "dc-3" "key-3" "alice" Demo.here Demo.both
           [Demo.alice; Demo.bob]);
    reflexivity.
Defined.
